(** * Ethoscan Genesis Score Verifier: a shallow embedding of
    [src/ethoscan-verifier.js] and the properties of its reports.

    The JavaScript class [Ethoscan] builds one mutable [result] object in
    [verify], hands it to four checkers that overwrite one pillar each and
    push onto [result.risks] / [result.warnings], and wraps the whole
    sequence in a single [try]/[catch].  The embedding keeps that shape: the
    [result] object is the state of a small state-and-exception monad in
    which a thrown error leaves the mutations made so far in place.

    The embedding has two layers.  In the first, every value a provider call
    throws is an [Error] object carrying a message, as the provider library
    throws them; [verify] and the checkers are embedded there and most
    properties are proved there.  The second layer, [Raw], embeds the same
    code for providers that may also reject with [null] or [undefined], on
    which the [error.message] of the [catch] block of [verify] itself throws;
    it also embeds the constructor and [demo]. *)

From Stdlib Require Import Ascii String ZArith List Bool Lia DecimalString.
Import ListNotations.

Local Open Scope string_scope.
Local Open Scope Z_scope.

(** ** Data model *)

(** One entry of [result.pillars]. *)
Record PillarResult : Type := mkPillar {
  verified : bool;
  points : Z;
  details : string
}.

(** The object literal [result.pillars]; the field order is the insertion
    order of the keys, which re-assignment of an existing key keeps. *)
Record Pillars : Type := mkPillars {
  teamTransparency : PillarResult;
  fairLaunchPledge : PillarResult;
  liquidityCommitment : PillarResult;
  treasuryTransparency : PillarResult
}.

(** The [result] object of [verify]. *)
Record Report : Type := mkReport {
  address : string;
  score : Z;
  maxScore : Z;
  tier : string;
  pillars : Pillars;
  risks : list string;
  warnings : list string
}.

(** A thrown JavaScript [Error]; only [error.message] is ever read. *)
Record JsError : Type := mkError { message : string }.

(** How an evaluation ends: with a value, or with a thrown error. *)
Inductive completion (A : Type) : Type :=
| Normal (a : A)
| Throw (e : JsError).
Arguments Normal {A} a.
Arguments Throw {A} e.

(** The chain provider as the verifier uses it.  [getCode] is
    [provider.getCode(address)]; [getOwners] stands for building the
    [ethers.Contract] at the address and awaiting [safe.getOwners()], both of
    which sit inside the inner [try] of [checkTreasury]. *)
Record Provider : Type := mkProvider {
  getCode : string -> completion string;
  getOwners : string -> completion (list string)
}.

(** The local constant [mockLpLock] of [checkLiquidity] has this shape. *)
Record LpLock : Type := mkLpLock {
  locked : bool;
  days : Z;
  renounceable : bool
}.

(** ** The monad of the verifier: mutation of [result] plus exceptions *)

Module Js.

(** A computation reads and writes the [result] object and either
    returns or throws; the object survives a throw. *)
Definition M (A : Type) : Type := Report -> completion A * Report.

Definition ret {A} (a : A) : M A := fun r => (Normal a, r).

Definition bind {A B} (m : M A) (k : A -> M B) : M B :=
  fun r =>
    match m r with
    | (Normal a, r') => k a r'
    | (Throw e, r') => (Throw e, r')
    end.

Definition get : M Report := fun r => (Normal r, r).

Definition modify (f : Report -> Report) : M unit :=
  fun r => (Normal tt, f r).

(** [await] of a provider call. *)
Definition await {A} (c : completion A) : M A := fun r => (c, r).

(** [try { body } catch (e) { handler e }]. *)
Definition tryCatch {A} (body : M A) (handler : JsError -> M A) : M A :=
  fun r =>
    match body r with
    | (Normal a, r') => (Normal a, r')
    | (Throw e, r') => handler e r'
    end.

(** [if (c) { m }] without an [else]. *)
Definition when (c : bool) (m : M unit) : M unit :=
  if c then m else ret tt.

End Js.

Declare Scope js_scope.
Delimit Scope js_scope with js.
Notation "x <- m ;; k" := (Js.bind m (fun x => k))
  (at level 61, m at next level, right associativity) : js_scope.
Notation "m ;; k" := (Js.bind m (fun _ => k))
  (at level 61, right associativity) : js_scope.
Local Open Scope js_scope.

(** ** Mutations of [result] *)

Definition setTreasury (p : PillarResult) : Js.M unit :=
  Js.modify (fun r =>
    mkReport (address r) (score r) (maxScore r) (tier r)
      (mkPillars (teamTransparency (pillars r)) (fairLaunchPledge (pillars r))
         (liquidityCommitment (pillars r)) p)
      (risks r) (warnings r)).

Definition setLiquidity (p : PillarResult) : Js.M unit :=
  Js.modify (fun r =>
    mkReport (address r) (score r) (maxScore r) (tier r)
      (mkPillars (teamTransparency (pillars r)) (fairLaunchPledge (pillars r))
         p (treasuryTransparency (pillars r)))
      (risks r) (warnings r)).

Definition setTeam (p : PillarResult) : Js.M unit :=
  Js.modify (fun r =>
    mkReport (address r) (score r) (maxScore r) (tier r)
      (mkPillars p (fairLaunchPledge (pillars r))
         (liquidityCommitment (pillars r)) (treasuryTransparency (pillars r)))
      (risks r) (warnings r)).

Definition setFairLaunch (p : PillarResult) : Js.M unit :=
  Js.modify (fun r =>
    mkReport (address r) (score r) (maxScore r) (tier r)
      (mkPillars (teamTransparency (pillars r)) p
         (liquidityCommitment (pillars r)) (treasuryTransparency (pillars r)))
      (risks r) (warnings r)).

Definition setScore (s : Z) : Js.M unit :=
  Js.modify (fun r =>
    mkReport (address r) s (maxScore r) (tier r) (pillars r)
      (risks r) (warnings r)).

Definition setTier (t : string) : Js.M unit :=
  Js.modify (fun r =>
    mkReport (address r) (score r) (maxScore r) t (pillars r)
      (risks r) (warnings r)).

(** [result.risks.push(s)] *)
Definition pushRisk (s : string) : Js.M unit :=
  Js.modify (fun r =>
    mkReport (address r) (score r) (maxScore r) (tier r) (pillars r)
      (risks r ++ [s]) (warnings r)).

(** [result.warnings.push(s)] *)
Definition pushWarning (s : string) : Js.M unit :=
  Js.modify (fun r =>
    mkReport (address r) (score r) (maxScore r) (tier r) (pillars r)
      (risks r) (warnings r ++ [s])).

(** ** Small JavaScript helpers *)

(** [`${n}`] for an array length. *)
Definition showNat (n : nat) : string :=
  NilZero.string_of_uint (Nat.to_uint n).

(** [`${d}`] for an integer. *)
Definition showZ (d : Z) : string :=
  NilZero.string_of_int (Z.to_int d).

(** [Object.values(result.pillars)] *)
Definition objectValues (ps : Pillars) : list PillarResult :=
  [teamTransparency ps; fairLaunchPledge ps;
   liquidityCommitment ps; treasuryTransparency ps].

(** [arr.includes(x)] on an array of strings. *)
Definition includes (arr : list string) (x : string) : bool :=
  existsb (String.eqb x) arr.

(** ** The class [Ethoscan] *)

Definition getTier (score : Z) : string :=
  if 350 <=? score then "Verified Builder"
  else if 200 <=? score then "Emerging Builder"
  else "Unverified".

Definition checkTreasury (provider : Provider) (address : string) : Js.M unit :=
  code <- Js.await (getCode provider address) ;;
  if negb (String.eqb code "0x") then
    Js.tryCatch
      (owners <- Js.await (getOwners provider address) ;;
       if (3 <=? length owners)%nat then
         setTreasury
           (mkPillar true 150
              ("Gnosis Safe with " ++ showNat (length owners) ++ " signers"))
       else
         setTreasury
           (mkPillar false 0
              ("Gnosis Safe but only " ++ showNat (length owners)
                 ++ " signers (<3)")) ;;
         pushWarning
           ("Low-signer Gnosis Safe (" ++ showNat (length owners) ++ "/3)"))
      (fun _ =>
         setTreasury (mkPillar false 0 "Not a Gnosis Safe") ;;
         pushRisk "Non-Gnosis treasury — high withdrawal risk")
  else
    setTreasury (mkPillar false 0 "EOA wallet — not multi-sig") ;;
    pushRisk "Project treasury is single-key wallet — critical risk".

(** The local constant [mockLpLock] of [checkLiquidity]. *)
Definition mockLpLock : LpLock := mkLpLock true 180 false.

(** [checkLiquidity(result, address)]: the address is not read. *)
Definition checkLiquidity (address : string) : Js.M unit :=
  if locked mockLpLock && (180 <=? days mockLpLock)
     && negb (renounceable mockLpLock) then
    setLiquidity
      (mkPillar true 150
         ("LP locked for " ++ showZ (days mockLpLock)
            ++ " days (non-renounceable)"))
  else
    setLiquidity (mkPillar false 0 "No qualifying LP lock").

Definition verifiedTeams : list string :=
  ["0x742d35Cc6634C0532925a3b8D4C9db4c2B6D9126";
   "0x1234567890123456789012345678901234567890"].

Definition checkTeam (address : string) : Js.M unit :=
  if includes verifiedTeams address then
    setTeam (mkPillar true 100 "Team verified via ENS/SIWE")
  else
    setTeam (mkPillar false 0 "No team verification").

Definition checkFairLaunch (address : string) : Js.M unit :=
  let hasPledge := false in
  if hasPledge then
    setFairLaunch (mkPillar true 100 "Fair launch pledge signed")
  else
    setFairLaunch (mkPillar false 0 "No fair launch pledge").

(** The object literal that [verify] starts from. *)
Definition initialResult (walletAddress : string) : Report :=
  mkReport walletAddress 0 500 "Unverified"
    (mkPillars (mkPillar false 0 "") (mkPillar false 0 "")
       (mkPillar false 0 "") (mkPillar false 0 ""))
    [] [].

(** The body of the [try] block of [verify]. *)
Definition verifyBody (provider : Provider) (walletAddress : string)
  : Js.M unit :=
  checkTreasury provider walletAddress ;;
  checkLiquidity walletAddress ;;
  checkTeam walletAddress ;;
  checkFairLaunch walletAddress ;;
  r <- Js.get ;;
  setScore
    (fold_left (fun sum p => sum + points p) (objectValues (pillars r)) 0) ;;
  r <- Js.get ;;
  setTier (getTier (score r)) ;;
  r <- Js.get ;;
  Js.when (score r <? 200)
    (pushRisk "High scam risk: Insufficient trust signals") ;;
  r <- Js.get ;;
  Js.when (negb (verified (treasuryTransparency (pillars r))))
    (pushWarning "⚠️ Treasury not verified as Gnosis Safe") ;;
  r <- Js.get ;;
  Js.when (negb (verified (liquidityCommitment (pillars r))))
    (pushWarning "⚠️ No long-term LP lock detected").

(** The [catch (error)] block of [verify], for a thrown [Error] object;
    [Raw.verifyCatch] below also covers [null] and [undefined]. *)
Definition verifyCatch (error : JsError) : Js.M unit :=
  pushWarning ("Verification failed: " ++ message error).

(** [verify(walletAddress)]: what the returned promise settles to. *)
Definition verify (provider : Provider) (walletAddress : string)
  : completion Report :=
  match Js.tryCatch (verifyBody provider walletAddress) verifyCatch
          (initialResult walletAddress) with
  | (Normal _, result) => Normal result
  | (Throw e, _) => Throw e
  end.

(** Sample providers. *)

(** Every address is an externally-owned account. *)
Definition eoaProvider : Provider :=
  mkProvider (fun _ => Normal "0x") (fun _ => Throw (mkError "call revert")).

(** Every address holds a Safe with the given owners. *)
Definition safeProvider (owners : list string) : Provider :=
  mkProvider (fun _ => Normal "0x6080") (fun _ => Normal owners).

(** Every address holds a contract without [getOwners]. *)
Definition contractProvider : Provider :=
  mkProvider (fun _ => Normal "0x6080")
    (fun _ => Throw (mkError "call revert exception")).

(** The RPC endpoint cannot be reached. *)
Definition downProvider : Provider :=
  mkProvider (fun _ => Throw (mkError "could not detect network"))
    (fun _ => Throw (mkError "could not detect network")).

(** ** Pillar names and their maxima *)

Inductive PillarName : Type :=
| TreasuryTransparency
| LiquidityCommitment
| TeamTransparency
| FairLaunchPledge.

(** The points announced for each pillar in the section comments of
    [verify] ("TREASURY TRANSPARENCY (150 pts)", ...). *)
Definition pillarMax (n : PillarName) : Z :=
  match n with
  | TreasuryTransparency => 150
  | LiquidityCommitment => 150
  | TeamTransparency => 100
  | FairLaunchPledge => 100
  end.

(** [result.pillars[key]] *)
Definition pillarOf (n : PillarName) (ps : Pillars) : PillarResult :=
  match n with
  | TreasuryTransparency => treasuryTransparency ps
  | LiquidityCommitment => liquidityCommitment ps
  | TeamTransparency => teamTransparency ps
  | FairLaunchPledge => fairLaunchPledge ps
  end.

(** The four checkers of [verify], in the order they are awaited. *)
Definition runCheckers (provider : Provider) (walletAddress : string)
  : Js.M unit :=
  checkTreasury provider walletAddress ;;
  checkLiquidity walletAddress ;;
  checkTeam walletAddress ;;
  checkFairLaunch walletAddress.

Definition isHexDigit (c : ascii) : bool :=
  let n := nat_of_ascii c in
  ((48 <=? n) && (n <=? 57) || (65 <=? n) && (n <=? 70)
   || (97 <=? n) && (n <=? 102))%nat.

(** Modelled from the spec: the syntactic validity of a [WalletAddress] for
    the target chain, which no code under [src/] implements.  The chain is an
    EVM chain, so an address is "0x" followed by forty hexadecimal digits, as
    the address literals of the source are. *)
Definition isValidAddress (s : string) : bool :=
  match s with
  | String "0"%char (String "x"%char rest) =>
      (String.length rest =? 40)%nat
      && forallb isHexDigit (list_ascii_of_string rest)
  | _ => false
  end.

(** ** The usage example [demo] *)




(** ** The second layer: rejections that are not [Error] objects *)

(** A value a provider promise rejects with: a value whose [message] can be
    read and appended to a string (an [Error] object), or [null] /
    [undefined]. *)
Inductive Thrown : Type :=
| ErrorObject (e : JsError)
| Nullish.

(** The [TypeError] the engine raises when [error.message] is evaluated on
    [null] or [undefined]; nothing catches it or reads its message. *)
Inductive TypeError : Type :=
| MessageOfNullish.

Module Raw.

(** How an evaluation ends, for errors of type [E]. *)
Inductive outcome (E A : Type) : Type :=
| Ok (a : A)
| Err (e : E).
Arguments Ok {E A} a.
Arguments Err {E A} e.

Definition M (E A : Type) : Type := Report -> outcome E A * Report.

Definition bind {E A B} (m : M E A) (k : A -> M E B) : M E B :=
  fun r =>
    match m r with
    | (Ok a, r') => k a r'
    | (Err e, r') => (Err e, r')
    end.

Definition throw {E A} (e : E) : M E A := fun r => (Err e, r).

Definition modify {E} (f : Report -> Report) : M E unit :=
  fun r => (Ok tt, f r).

(** [await] of a provider call. *)
Definition await {E A} (c : outcome E A) : M E A := fun r => (c, r).

(** [try { body } catch (e) { handler e }]; the handler may throw errors of
    another type than the body. *)
Definition tryCatch {E E' A} (body : M E A) (handler : E -> M E' A)
  : M E' A :=
  fun r =>
    match body r with
    | (Ok a, r') => (Ok a, r')
    | (Err e, r') => handler e r'
    end.

(** A computation of the first layer, run here: what it throws is an
    [Error] object. *)
Definition lift {A} (m : Js.M A) : M Thrown A :=
  fun r =>
    match m r with
    | (Normal a, r') => (Ok a, r')
    | (Throw e, r') => (Err (ErrorObject e), r')
    end.

Declare Scope raw_scope.
Delimit Scope raw_scope with raw.
Notation "x <- m ;; k" := (bind m (fun x => k))
  (at level 61, m at next level, right associativity) : raw_scope.
Notation "m ;; k" := (bind m (fun _ => k))
  (at level 61, right associativity) : raw_scope.
Local Open Scope raw_scope.

(** The chain provider, with rejections of any kind. *)
Record Provider : Type := mkProvider {
  getCode : string -> outcome Thrown string;
  getOwners : string -> outcome Thrown (list string)
}.

Definition checkTreasury (provider : Provider) (address : string)
  : M Thrown unit :=
  code <- await (getCode provider address) ;;
  if negb (String.eqb code "0x") then
    tryCatch
      (owners <- await (getOwners provider address) ;;
       if (3 <=? length owners)%nat then
         lift
           (setTreasury
              (mkPillar true 150
                 ("Gnosis Safe with " ++ showNat (length owners)
                    ++ " signers")))
       else
         lift
           (setTreasury
              (mkPillar false 0
                 ("Gnosis Safe but only " ++ showNat (length owners)
                    ++ " signers (<3)"))) ;;
         lift
           (pushWarning
              ("Low-signer Gnosis Safe (" ++ showNat (length owners)
                 ++ "/3)")))
      (fun _ =>
         lift (setTreasury (mkPillar false 0 "Not a Gnosis Safe")) ;;
         lift (pushRisk "Non-Gnosis treasury — high withdrawal risk"))
  else
    lift (setTreasury (mkPillar false 0 "EOA wallet — not multi-sig")) ;;
    lift (pushRisk "Project treasury is single-key wallet — critical risk").

(** The body of the [try] block of [verify]. *)
Definition verifyBody (provider : Provider) (walletAddress : string)
  : M Thrown unit :=
  checkTreasury provider walletAddress ;;
  lift (checkLiquidity walletAddress) ;;
  lift (checkTeam walletAddress) ;;
  lift (checkFairLaunch walletAddress) ;;
  r <- lift Js.get ;;
  lift
    (setScore
       (fold_left (fun sum p => sum + points p) (objectValues (pillars r))
          0)) ;;
  r <- lift Js.get ;;
  lift (setTier (getTier (score r))) ;;
  r <- lift Js.get ;;
  lift
    (Js.when (score r <? 200)
       (pushRisk "High scam risk: Insufficient trust signals")) ;;
  r <- lift Js.get ;;
  lift
    (Js.when (negb (verified (treasuryTransparency (pillars r))))
       (pushWarning "⚠️ Treasury not verified as Gnosis Safe")) ;;
  r <- lift Js.get ;;
  lift
    (Js.when (negb (verified (liquidityCommitment (pillars r))))
       (pushWarning "⚠️ No long-term LP lock detected")).

(** The [catch (error)] block of [verify]: [error.message] is evaluated
    before the push, and throws when [error] is [null] or [undefined]. *)
Definition verifyCatch (error : Thrown) : M TypeError unit :=
  match error with
  | ErrorObject e =>
      modify (fun r =>
        mkReport (address r) (score r) (maxScore r) (tier r) (pillars r)
          (risks r)
          (warnings r ++ [("Verification failed: " ++ message e)%string]))
  | Nullish => throw MessageOfNullish
  end.

(** [verify(walletAddress)]: the returned promise resolves to [result], or
    rejects with what the [catch] block threw. *)
Definition verify (provider : Provider) (walletAddress : string)
  : outcome TypeError Report :=
  match tryCatch (verifyBody provider walletAddress) verifyCatch
          (initialResult walletAddress) with
  | (Ok _, result) => Ok result
  | (Err t, _) => Err t
  end.



End Raw.

(** A provider that rejects what is not an address with an [Error]
    object, and finds no code at any address. *)
Definition strictProvider : Raw.Provider :=
  Raw.mkProvider
    (fun a =>
       if isValidAddress a then Raw.Ok "0x"
       else Raw.Err (ErrorObject (mkError "invalid address")))
    (fun _ => Raw.Err (ErrorObject (mkError "call revert exception"))).

(** A provider whose bytecode fetch rejects with [undefined]. *)
Definition nullishProvider : Raw.Provider :=
  Raw.mkProvider (fun _ => Raw.Err Nullish) (fun _ => Raw.Err Nullish).

(** The order of the tiers, lowest first. *)
Definition tierRank (t : string) : nat :=
  if String.eqb t "Verified Builder" then 2
  else if String.eqb t "Emerging Builder" then 1
  else 0.

(** ** Auxiliary definitions for the proofs *)

(** The [result] object after the Treasury checker has stored pillar [t] and
    pushed the risks [rs] and the warnings [ws]. *)
Definition withTreasury (t : PillarResult) (rs ws : list string) (r : Report)
  : Report :=
  mkReport (address r) (score r) (maxScore r) (tier r)
    (mkPillars (teamTransparency (pillars r)) (fairLaunchPledge (pillars r))
       (liquidityCommitment (pillars r)) t)
    (risks r ++ rs) (warnings r ++ ws).

(** The pillar value [checkTeam] stores for an address. *)
Definition teamResult (addr : string) : PillarResult :=
  if includes verifiedTeams addr
  then mkPillar true 100 "Team verified via ENS/SIWE"
  else mkPillar false 0 "No team verification".

(** The [result] object at the end of the [try] block, given the object
    [r1] that the Treasury checker left. *)
Definition aggregated (addr : string) (r1 : Report) : Report :=
  let treasury := treasuryTransparency (pillars r1) in
  let s := 0 + points (teamResult addr) + 0 + 150 + points treasury in
  mkReport (address r1) s (maxScore r1) (getTier s)
    (mkPillars (teamResult addr) (mkPillar false 0 "No fair launch pledge")
       (mkPillar true 150 "LP locked for 180 days (non-renounceable)")
       treasury)
    (risks r1
       ++ (if s <? 200 then ["High scam risk: Insufficient trust signals"]
           else []))
    (warnings r1
       ++ (if verified treasury then []
           else ["⚠️ Treasury not verified as Gnosis Safe"])).

(** The four ways the Treasury checker can return: the pillar it stores,
    the risks and the warnings it pushes, and the provider answers that lead
    there. *)
Inductive TreasuryOutcome (provider : Provider) (addr : string)
  : PillarResult -> list string -> list string -> Prop :=
| OutcomeEoa :
    getCode provider addr = Normal "0x" ->
    TreasuryOutcome provider addr
      (mkPillar false 0 "EOA wallet — not multi-sig")
      ["Project treasury is single-key wallet — critical risk"] []
| OutcomeSafe code owners :
    getCode provider addr = Normal code ->
    code <> "0x" ->
    getOwners provider addr = Normal owners ->
    (3 <= length owners)%nat ->
    TreasuryOutcome provider addr
      (mkPillar true 150
         ("Gnosis Safe with " ++ showNat (length owners) ++ " signers"))
      [] []
| OutcomeLowSigners code owners :
    getCode provider addr = Normal code ->
    code <> "0x" ->
    getOwners provider addr = Normal owners ->
    (length owners < 3)%nat ->
    TreasuryOutcome provider addr
      (mkPillar false 0
         ("Gnosis Safe but only " ++ showNat (length owners)
            ++ " signers (<3)"))
      []
      [("Low-signer Gnosis Safe (" ++ showNat (length owners) ++ "/3)")%string]
| OutcomeNotSafe code e :
    getCode provider addr = Normal code ->
    code <> "0x" ->
    getOwners provider addr = Throw e ->
    TreasuryOutcome provider addr
      (mkPillar false 0 "Not a Gnosis Safe")
      ["Non-Gnosis treasury — high withdrawal risk"] [].

(** The first-layer provider that answers like a [Raw] provider, with an
    [Error] of empty message standing for [null] / [undefined]; used where
    the thrown value is ignored or where that case is excluded. *)
Definition errorObjectView (provider : Raw.Provider) : Provider :=
  mkProvider
    (fun a =>
       match Raw.getCode provider a with
       | Raw.Ok code => Normal code
       | Raw.Err (ErrorObject e) => Throw e
       | Raw.Err Nullish => Throw (mkError "")
       end)
    (fun a =>
       match Raw.getOwners provider a with
       | Raw.Ok owners => Normal owners
       | Raw.Err (ErrorObject e) => Throw e
       | Raw.Err Nullish => Throw (mkError "")
       end).

(** A first-layer provider seen from the second layer. *)
Definition rawCompletion {A} (c : completion A) : Raw.outcome Thrown A :=
  match c with
  | Normal a => Raw.Ok a
  | Throw e => Raw.Err (ErrorObject e)
  end.

Definition rawProvider (provider : Provider) : Raw.Provider :=
  Raw.mkProvider (fun a => rawCompletion (getCode provider a))
    (fun a => rawCompletion (getOwners provider a)).

(** The report [verify] returns when the bytecode fetch throws [e]. *)
Definition failedReport (walletAddress : string) (e : JsError) : Report :=
  mkReport walletAddress 0 500 "Unverified"
    (mkPillars (mkPillar false 0 "") (mkPillar false 0 "")
       (mkPillar false 0 "") (mkPillar false 0 ""))
    [] [("Verification failed: " ++ message e)%string].

(** All-or-nothing scoring of one pillar against its maximum. *)
Definition binaryScoring (max : Z) (q : PillarResult) : Prop :=
  (points q = max <-> verified q = true)
  /\ (points q = 0 <-> verified q = false).

(** * Proofs *)

(** The address literals of the source pass the validity test. *)
Lemma verifiedTeams_valid : forallb isValidAddress verifiedTeams = true.
Proof. reflexivity. Qed.

(** ** Symbolic execution of the checkers *)

#[local] Arguments String.append : simpl never.
#[local] Arguments showNat : simpl never.
#[local] Arguments showZ : simpl never.

Section TreasuryCases.

Variable provider : Provider.
Variable addr : string.
Variable r : Report.

Lemma checkTreasury_getCode_throws e :
  getCode provider addr = Throw e ->
  checkTreasury provider addr r = (Throw e, r).
Proof.
  intros H. unfold checkTreasury, Js.bind, Js.await. now rewrite H.
Qed.

Lemma checkTreasury_eoa :
  getCode provider addr = Normal "0x" ->
  checkTreasury provider addr r =
    (Normal tt,
     withTreasury (mkPillar false 0 "EOA wallet — not multi-sig")
       ["Project treasury is single-key wallet — critical risk"] [] r).
Proof.
  intros H. unfold checkTreasury, Js.bind, Js.await. rewrite H.
  cbn. unfold withTreasury. now rewrite app_nil_r.
Qed.

Section Contract.

Variable code : string.
Hypothesis Hcode : getCode provider addr = Normal code.
Hypothesis Hcontract : code <> "0x".

Lemma contract_test : negb (String.eqb code "0x") = true.
Proof. now apply negb_true_iff, String.eqb_neq. Qed.

Lemma checkTreasury_safe owners :
  getOwners provider addr = Normal owners ->
  (3 <= length owners)%nat ->
  checkTreasury provider addr r =
    (Normal tt,
     withTreasury
       (mkPillar true 150
          ("Gnosis Safe with " ++ showNat (length owners) ++ " signers"))
       [] [] r).
Proof.
  intros Ho Hn. unfold checkTreasury, Js.bind, Js.await, Js.tryCatch.
  rewrite Hcode, contract_test, Ho.
  rewrite (proj2 (Nat.leb_le 3 (length owners)) Hn).
  cbn. unfold withTreasury. now rewrite !app_nil_r.
Qed.

Lemma checkTreasury_low_signers owners :
  getOwners provider addr = Normal owners ->
  (length owners < 3)%nat ->
  checkTreasury provider addr r =
    (Normal tt,
     withTreasury
       (mkPillar false 0
          ("Gnosis Safe but only " ++ showNat (length owners)
             ++ " signers (<3)"))
       []
       ["Low-signer Gnosis Safe (" ++ showNat (length owners) ++ "/3)"]
       r).
Proof.
  intros Ho Hn. unfold checkTreasury, Js.bind, Js.await, Js.tryCatch.
  rewrite Hcode, contract_test, Ho.
  rewrite (proj2 (Nat.leb_gt 3 (length owners)) Hn).
  cbn. unfold withTreasury. now rewrite !app_nil_r.
Qed.

Lemma checkTreasury_call_fails e :
  getOwners provider addr = Throw e ->
  checkTreasury provider addr r =
    (Normal tt,
     withTreasury (mkPillar false 0 "Not a Gnosis Safe")
       ["Non-Gnosis treasury — high withdrawal risk"] [] r).
Proof.
  intros Ho. unfold checkTreasury, Js.bind, Js.await, Js.tryCatch.
  rewrite Hcode, contract_test, Ho.
  cbn. unfold withTreasury. now rewrite !app_nil_r.
Qed.

End Contract.

End TreasuryCases.

(** What the Treasury checker leaves behind whenever the bytecode fetch
    returns: one pillar value with all-or-nothing points and at most one
    message. *)
Lemma checkTreasury_returns provider addr r code :
  getCode provider addr = Normal code ->
  exists t rs ws,
    checkTreasury provider addr r = (Normal tt, withTreasury t rs ws r)
    /\ ((verified t = true /\ points t = 150)
        \/ (verified t = false /\ points t = 0))
    /\ (length rs + length ws <= 1)%nat.
Proof.
  intros Hcode.
  destruct (String.eqb_spec code "0x") as [-> | Hne].
  - eexists _, _, _. split; [now apply checkTreasury_eoa |].
    cbn. split; [now right | lia].
  - destruct (getOwners provider addr) as [owners | e] eqn:Ho.
    + destruct (Nat.le_gt_cases 3 (length owners)) as [Hn | Hn].
      * eexists _, _, _.
        split; [exact (checkTreasury_safe _ _ _ code Hcode Hne owners Ho Hn) |].
        cbn. split; [now left | lia].
      * eexists _, _, _.
        split; [exact (checkTreasury_low_signers _ _ _ code Hcode Hne owners Ho Hn) |].
        cbn. split; [now right | lia].
    + eexists _, _, _.
      split; [exact (checkTreasury_call_fails _ _ _ code Hcode Hne e Ho) |].
      cbn. split; [now right | lia].
Qed.

Lemma checkTeam_run addr r :
  checkTeam addr r =
    (Normal tt,
     mkReport (address r) (score r) (maxScore r) (tier r)
       (mkPillars (teamResult addr) (fairLaunchPledge (pillars r))
          (liquidityCommitment (pillars r)) (treasuryTransparency (pillars r)))
       (risks r) (warnings r)).
Proof.
  unfold checkTeam, teamResult.
  now destruct (includes verifiedTeams addr).
Qed.

Lemma teamResult_points addr :
  (verified (teamResult addr) = true /\ points (teamResult addr) = 100)
  \/ (verified (teamResult addr) = false /\ points (teamResult addr) = 0).
Proof.
  unfold teamResult. destruct (includes verifiedTeams addr); cbn; auto.
Qed.

Lemma verifyBody_run provider addr r r1 :
  checkTreasury provider addr r = (Normal tt, r1) ->
  verifyBody provider addr r = (Normal tt, aggregated addr r1).
Proof.
  intros Ht. unfold verifyBody.
  unfold Js.bind at 1. rewrite Ht.
  unfold Js.bind at 1.
  change (checkLiquidity addr r1) with
    (setLiquidity
       (mkPillar true 150 "LP locked for 180 days (non-renounceable)") r1).
  cbv beta iota delta [setLiquidity Js.modify].
  unfold Js.bind at 1. rewrite checkTeam_run.
  unfold aggregated.
  cbn -[teamResult getTier Z.add Z.ltb].
  set (s := 0 + points (teamResult addr) + 0 + 150
            + points (treasuryTransparency (pillars r1))).
  destruct (s <? 200);
    cbn -[teamResult getTier Z.add Z.ltb];
    destruct (verified (treasuryTransparency (pillars r1)));
    cbn; rewrite ?app_nil_r; reflexivity.
Qed.

(** [verify] when the bytecode fetch throws: only the [catch] block has
    touched the initial object. *)
Lemma verify_getCode_throws provider addr e :
  getCode provider addr = Throw e ->
  verify provider addr =
    Normal
      (mkReport addr 0 500 "Unverified"
         (mkPillars (mkPillar false 0 "") (mkPillar false 0 "")
            (mkPillar false 0 "") (mkPillar false 0 ""))
         [] ["Verification failed: " ++ message e]).
Proof.
  intros H. unfold verify, Js.tryCatch, verifyBody.
  unfold Js.bind at 1.
  now rewrite (checkTreasury_getCode_throws _ _ _ e H).
Qed.

(** [verify] when the Treasury checker returns. *)
Lemma verify_treasury_returns provider addr r1 :
  checkTreasury provider addr (initialResult addr) = (Normal tt, r1) ->
  verify provider addr = Normal (aggregated addr r1).
Proof.
  intros H. unfold verify, Js.tryCatch.
  now rewrite (verifyBody_run _ _ _ r1 H).
Qed.

(** ** Properties of the reports *)

Lemma binaryScoring_full max d : max <> 0 -> binaryScoring max (mkPillar true max d).
Proof. intros H. unfold binaryScoring. cbn. intuition congruence. Qed.

Lemma binaryScoring_none max d : max <> 0 -> binaryScoring max (mkPillar false 0 d).
Proof. intros H. unfold binaryScoring. cbn. intuition congruence. Qed.

Lemma binaryScoring_cases max q :
  max <> 0 ->
  (verified q = true /\ points q = max) \/ (verified q = false /\ points q = 0) ->
  binaryScoring max q.
Proof.
  intros H [[Hv Hp] | [Hv Hp]]; unfold binaryScoring; rewrite Hv, Hp;
    intuition congruence.
Qed.

Create HintDb scoring.
#[local] Hint Resolve binaryScoring_full binaryScoring_none binaryScoring_cases
  teamResult_points : scoring.

(** C4.  In every report that [verify] returns, each of the four pillars is
    scored all-or-nothing: its points equal the pillar's maximum (150 for
    TreasuryTransparency and LiquidityCommitment, 100 for TeamTransparency
    and FairLaunchPledge) exactly when it is verified, and are 0 exactly
    when it is not. *)
Theorem verify_binary_scoring (provider : Provider) (walletAddress : string) :
  exists report,
    verify provider walletAddress = Normal report
    /\ forall n, binaryScoring (pillarMax n) (pillarOf n (pillars report)).
Proof.
  destruct (getCode provider walletAddress) as [code | e] eqn:Hcode.
  - destruct (checkTreasury_returns provider walletAddress
                (initialResult walletAddress) code Hcode)
      as (t & rs & ws & Hrun & Ht & _).
    eexists. split; [exact (verify_treasury_returns _ _ _ Hrun) |].
    intros []; cbn -[teamResult]; auto with scoring; try easy.
    all: apply binaryScoring_cases; [easy | auto with scoring].
  - eexists. split; [exact (verify_getCode_throws _ _ e Hcode) |].
    intros []; cbn; auto with scoring; easy.
Qed.

(** C2.  The report that [verify] returns has a score equal to the sum of
    the points of its four pillars, and the score lies between 0 and 500.
    This holds on every path of [verify], the [catch] path included, hence in
    particular for valid addresses on which [verify] completes normally. *)
Theorem verify_score_is_sum (provider : Provider) (walletAddress : string) :
  exists report,
    verify provider walletAddress = Normal report
    /\ score report =
         points (treasuryTransparency (pillars report))
         + points (liquidityCommitment (pillars report))
         + points (teamTransparency (pillars report))
         + points (fairLaunchPledge (pillars report))
    /\ 0 <= score report <= 500.
Proof.
  destruct (getCode provider walletAddress) as [code | e] eqn:Hcode.
  - destruct (checkTreasury_returns provider walletAddress
                (initialResult walletAddress) code Hcode)
      as (t & rs & ws & Hrun & Ht & _).
    eexists. split; [exact (verify_treasury_returns _ _ _ Hrun) |].
    cbn -[teamResult Z.add].
    destruct (teamResult_points walletAddress) as [[_ Hp] | [_ Hp]];
      destruct Ht as [[_ Hq] | [_ Hq]]; rewrite Hp, Hq; lia.
  - eexists. split; [exact (verify_getCode_throws _ _ e Hcode) |].
    cbn. lia.
Qed.

(** C3, as the code has it.  The tier is a function of the score alone, with
    inclusive lower bounds tested from the top: a score of at least 350 gives
    "Verified Builder", otherwise a score of at least 200 gives "Emerging
    Builder", otherwise "Unverified".  At the boundaries: 350 gives Verified
    Builder, 349 and 200 give Emerging Builder, 199 gives Unverified. *)
Theorem getTier_thresholds (s : Z) :
  (getTier s = "Verified Builder" <-> 350 <= s)
  /\ (getTier s = "Emerging Builder" <-> 200 <= s < 350)
  /\ (getTier s = "Unverified" <-> s < 200)
  /\ getTier 350 = "Verified Builder"
  /\ getTier 349 = "Emerging Builder"
  /\ getTier 200 = "Emerging Builder"
  /\ getTier 199 = "Unverified".
Proof.
  unfold getTier.
  destruct (Z.leb_spec 350 s); [| destruct (Z.leb_spec 200 s)];
    cbn; repeat split; intros; try discriminate; try lia; reflexivity.
Qed.

(** C3, the claim's boundary case refuted: a score of 349 does not yield
    "Unverified"; it is at least 200 and yields "Emerging Builder". *)
Lemma getTier_349_not_unverified :
  getTier 349 = "Emerging Builder" /\ getTier 349 <> "Unverified".
Proof. split; [reflexivity | discriminate]. Qed.

(** C5, refuted as stated: the outcome of the Liquidity checker does not
    follow the lock facts of the wallet.  For a lock of 179 days, locked and
    not renounceable, the condition of the claim fails, and the checker,
    which reads no lock facts besides its own constant, still stores a
    verified pillar. *)
Lemma checkLiquidity_ignores_lock_facts :
  ~ (verified
       (liquidityCommitment
          (pillars
             (snd (checkLiquidity "0xScamWalletAddressHere"
                     (initialResult "0xScamWalletAddressHere"))))) = true
     <-> locked (mkLpLock true 179 false) = true
         /\ 180 <= days (mkLpLock true 179 false)
         /\ renounceable (mkLpLock true 179 false) = false).
Proof.
  intros [Hverified _].
  destruct (Hverified eq_refl) as (_ & Hdays & _).
  cbn in Hdays. lia.
Qed.

(** C5, as the code has it.  The Liquidity checker tests the condition
    locked, at least 180 days, not renounceable on its compiled-in constant
    [mockLpLock] only.  The constant is locked, of exactly 180 days and not
    renounceable, so it meets the condition at the bound: for every address
    and every state of [result] the checker returns and stores verified=true
    with 150 points and details "LP locked for 180 days (non-renounceable)",
    never the "No qualifying LP lock" pillar, and leaves the rest of
    [result] alone. *)
Theorem checkLiquidity_tests_mock_lock (walletAddress : string) (r : Report) :
  exists r',
    checkLiquidity walletAddress r = (Normal tt, r')
    /\ (verified (liquidityCommitment (pillars r')) = true
        /\ points (liquidityCommitment (pillars r')) = 150
        <-> locked mockLpLock = true
            /\ 180 <= days mockLpLock
            /\ renounceable mockLpLock = false)
    /\ locked mockLpLock = true
    /\ days mockLpLock = 180
    /\ renounceable mockLpLock = false
    /\ liquidityCommitment (pillars r') =
         mkPillar true 150 "LP locked for 180 days (non-renounceable)"
    /\ liquidityCommitment (pillars r') <>
         mkPillar false 0 "No qualifying LP lock"
    /\ treasuryTransparency (pillars r') = treasuryTransparency (pillars r)
    /\ teamTransparency (pillars r') = teamTransparency (pillars r)
    /\ fairLaunchPledge (pillars r') = fairLaunchPledge (pillars r)
    /\ risks r' = risks r
    /\ warnings r' = warnings r.
Proof.
  eexists. split; [reflexivity |].
  cbn. repeat split; try reflexivity; try discriminate; lia.
Qed.

(** C6.  At an address whose bytecode is not "0x", the Treasury checker
    returns and its outcome follows the [getOwners] call: with three owners
    or more the pillar is verified with 150 points and its details show the
    owner count; with fewer the pillar is unverified with 0 points and the
    low-signer warning is pushed; when the call throws the pillar is
    unverified with 0 points and the non-Gnosis risk is pushed. *)
Theorem checkTreasury_contract (provider : Provider) (addr code : string)
    (r : Report)
    (Hcode : getCode provider addr = Normal code)
    (Hcontract : code <> "0x") :
  exists r',
    checkTreasury provider addr r = (Normal tt, r')
    /\ (forall owners,
          getOwners provider addr = Normal owners ->
          (3 <= length owners)%nat ->
          treasuryTransparency (pillars r') =
            mkPillar true 150
              ("Gnosis Safe with " ++ showNat (length owners) ++ " signers")
          /\ risks r' = risks r /\ warnings r' = warnings r)
    /\ (forall owners,
          getOwners provider addr = Normal owners ->
          (length owners < 3)%nat ->
          treasuryTransparency (pillars r') =
            mkPillar false 0
              ("Gnosis Safe but only " ++ showNat (length owners)
                 ++ " signers (<3)")
          /\ risks r' = risks r
          /\ warnings r' =
               (warnings r
                ++ [("Low-signer Gnosis Safe (" ++ showNat (length owners)
                       ++ "/3)")%string])%list)
    /\ (forall e,
          getOwners provider addr = Throw e ->
          treasuryTransparency (pillars r') =
            mkPillar false 0 "Not a Gnosis Safe"
          /\ risks r' =
               (risks r ++ ["Non-Gnosis treasury — high withdrawal risk"])%list
          /\ warnings r' = warnings r).
Proof.
  destruct (getOwners provider addr) as [owners | e] eqn:Ho.
  - destruct (Nat.le_gt_cases 3 (length owners)) as [Hn | Hn].
    + eexists. split;
        [exact (checkTreasury_safe _ _ r code Hcode Hcontract owners Ho Hn) |].
      split; [| split]; [intros o [= <-] Hlen .. | discriminate].
      * cbn. now rewrite !app_nil_r.
      * lia.
    + eexists. split;
        [exact (checkTreasury_low_signers _ _ r code Hcode Hcontract
                  owners Ho Hn) |].
      split; [| split]; [intros o [= <-] Hlen .. | discriminate].
      * lia.
      * cbn. now rewrite !app_nil_r.
  - eexists. split;
      [exact (checkTreasury_call_fails _ _ r code Hcode Hcontract e Ho) |].
    split; [| split]; [discriminate .. | intros e' _].
    cbn. now rewrite !app_nil_r.
Qed.

Lemma checkTreasury_contract_witness :
  (exists r',
     checkTreasury (safeProvider ["0xA1"; "0xB2"; "0xC3"]) "0xSafe"
       (initialResult "0xSafe") = (Normal tt, r')
     /\ treasuryTransparency (pillars r') =
          mkPillar true 150 "Gnosis Safe with 3 signers")
  /\ (exists r',
        checkTreasury (safeProvider ["0xA1"; "0xB2"]) "0xSafe"
          (initialResult "0xSafe") = (Normal tt, r')
        /\ treasuryTransparency (pillars r') =
             mkPillar false 0 "Gnosis Safe but only 2 signers (<3)"
        /\ warnings r' = ["Low-signer Gnosis Safe (2/3)"])
  /\ (exists r',
        checkTreasury contractProvider "0xToken"
          (initialResult "0xToken") = (Normal tt, r')
        /\ treasuryTransparency (pillars r') =
             mkPillar false 0 "Not a Gnosis Safe"
        /\ risks r' = ["Non-Gnosis treasury — high withdrawal risk"]).
Proof.
  split; [| split].
  - destruct (checkTreasury_contract (safeProvider ["0xA1"; "0xB2"; "0xC3"])
                "0xSafe" "0x6080" (initialResult "0xSafe") eq_refl)
      as (r' & Hrun & Hsafe & _); [discriminate |].
    exists r'. split; [exact Hrun |].
    exact (proj1 (Hsafe _ eq_refl (le_n 3))).
  - destruct (checkTreasury_contract (safeProvider ["0xA1"; "0xB2"])
                "0xSafe" "0x6080" (initialResult "0xSafe") eq_refl)
      as (r' & Hrun & _ & Hlow & _); [discriminate |].
    exists r'. split; [exact Hrun |].
    destruct (Hlow _ eq_refl (le_n 3)) as (Ht & _ & Hw).
    split; [exact Ht | exact Hw].
  - destruct (checkTreasury_contract contractProvider
                "0xToken" "0x6080" (initialResult "0xToken") eq_refl)
      as (r' & Hrun & _ & _ & Hfail); [discriminate |].
    exists r'. split; [exact Hrun |].
    destruct (Hfail _ eq_refl) as (Ht & Hr & _).
    split; [exact Ht | exact Hr].
Defined.

(** C7.  At an address whose bytecode is "0x" (an externally-owned account)
    the Treasury checker stores verified=false, points=0 with details "EOA
    wallet — not multi-sig" and pushes the single-key-wallet risk, whatever
    the [result] object held before; the other pillars and the warnings are
    left alone.  The report of [verify] for such an address carries that
    pillar and starts its risks with that entry. *)
Theorem checkTreasury_eoa_outcome (provider : Provider) (addr : string)
    (r : Report)
    (Heoa : getCode provider addr = Normal "0x") :
  (exists r',
     checkTreasury provider addr r = (Normal tt, r')
     /\ treasuryTransparency (pillars r') =
          mkPillar false 0 "EOA wallet — not multi-sig"
     /\ risks r' =
          (risks r
           ++ ["Project treasury is single-key wallet — critical risk"])%list
     /\ warnings r' = warnings r
     /\ liquidityCommitment (pillars r') = liquidityCommitment (pillars r)
     /\ teamTransparency (pillars r') = teamTransparency (pillars r)
     /\ fairLaunchPledge (pillars r') = fairLaunchPledge (pillars r))
  /\ (exists report,
        verify provider addr = Normal report
        /\ treasuryTransparency (pillars report) =
             mkPillar false 0 "EOA wallet — not multi-sig"
        /\ hd_error (risks report) =
             Some "Project treasury is single-key wallet — critical risk").
Proof.
  split.
  - eexists. split; [exact (checkTreasury_eoa _ _ r Heoa) |].
    cbn. now rewrite app_nil_r.
  - eexists. split.
    + apply verify_treasury_returns.
      exact (checkTreasury_eoa _ _ (initialResult addr) Heoa).
    + cbn. split; reflexivity.
Qed.

Lemma checkTreasury_eoa_outcome_witness :
  getCode eoaProvider "0x742d35Cc6634C0532925a3b8D4C9db4c2B6D9126" =
    Normal "0x"
  /\ exists report,
       verify eoaProvider "0x742d35Cc6634C0532925a3b8D4C9db4c2B6D9126" =
         Normal report
       /\ treasuryTransparency (pillars report) =
            mkPillar false 0 "EOA wallet — not multi-sig"
       /\ hd_error (risks report) =
            Some "Project treasury is single-key wallet — critical risk".
Proof.
  split; [reflexivity |].
  exact (proj2 (checkTreasury_eoa_outcome eoaProvider
                  "0x742d35Cc6634C0532925a3b8D4C9db4c2B6D9126"
                  (initialResult "0x742d35Cc6634C0532925a3b8D4C9db4c2B6D9126")
                  eq_refl)).
Defined.

(** C10.  For every address and every state of [result], the Liquidity
    checker returns and stores verified=true with 150 points, from the
    compiled-in [mockLpLock] (locked, 180 days, not renounceable); neither the
    address nor the provider enters.  Hence every report for which the four
    checkers all complete has a score of at least 150. *)
Theorem checkLiquidity_always_verified (provider : Provider)
    (walletAddress : string) (r : Report) :
  mockLpLock = mkLpLock true 180 false
  /\ (exists r',
        checkLiquidity walletAddress r = (Normal tt, r')
        /\ liquidityCommitment (pillars r') =
             mkPillar true 150 "LP locked for 180 days (non-renounceable)")
  /\ (fst (runCheckers provider walletAddress (initialResult walletAddress)) =
        Normal tt ->
      exists report,
        verify provider walletAddress = Normal report
        /\ liquidityCommitment (pillars report) =
             mkPillar true 150 "LP locked for 180 days (non-renounceable)"
        /\ 150 <= score report).
Proof.
  split; [reflexivity |]. split.
  - eexists. split; reflexivity.
  - intros Hall.
    destruct (getCode provider walletAddress) as [code | e] eqn:Hcode.
    + destruct (checkTreasury_returns provider walletAddress
                  (initialResult walletAddress) code Hcode)
        as (t & rs & ws & Hrun & Ht & _).
      eexists. split; [exact (verify_treasury_returns _ _ _ Hrun) |].
      split; [reflexivity |].
      cbn -[teamResult Z.add].
      destruct (teamResult_points walletAddress) as [[_ Hp] | [_ Hp]];
        destruct Ht as [[_ Hq] | [_ Hq]]; rewrite Hp, Hq; lia.
    + unfold runCheckers in Hall. unfold Js.bind at 1 in Hall.
      rewrite (checkTreasury_getCode_throws _ _ _ e Hcode) in Hall.
      discriminate Hall.
Qed.

Lemma checkLiquidity_always_verified_witness :
  fst (runCheckers contractProvider "0xScamWalletAddressHere"
         (initialResult "0xScamWalletAddressHere")) = Normal tt
  /\ exists report,
       verify contractProvider "0xScamWalletAddressHere" = Normal report
       /\ liquidityCommitment (pillars report) =
            mkPillar true 150 "LP locked for 180 days (non-renounceable)"
       /\ 150 <= score report.
Proof.
  split; [reflexivity |].
  exact (proj2 (proj2 (checkLiquidity_always_verified contractProvider
                         "0xScamWalletAddressHere"
                         (initialResult "0xScamWalletAddressHere")))
           eq_refl).
Defined.

(** C1, refuted as stated: when the bytecode fetch throws, the report for a
    listed team address holds the untouched initial Liquidity, Team and
    FairLaunch pillars, not the values their checkers compute. *)
Lemma getCode_failure_skips_other_checkers :
  exists report,
    verify downProvider "0x742d35Cc6634C0532925a3b8D4C9db4c2B6D9126" =
      Normal report
    /\ liquidityCommitment (pillars report) = mkPillar false 0 ""
    /\ teamTransparency (pillars report) = mkPillar false 0 ""
    /\ fairLaunchPledge (pillars report) = mkPillar false 0 ""
    /\ liquidityCommitment
         (pillars
            (snd (checkLiquidity "0x742d35Cc6634C0532925a3b8D4C9db4c2B6D9126"
                    report))) =
         mkPillar true 150 "LP locked for 180 days (non-renounceable)"
    /\ teamTransparency
         (pillars
            (snd (checkTeam "0x742d35Cc6634C0532925a3b8D4C9db4c2B6D9126"
                    report))) =
         mkPillar true 100 "Team verified via ENS/SIWE".
Proof. eexists. split; [reflexivity |]. repeat split. Qed.

(** C1, as the code has it.  A failure thrown by the bytecode fetch leaves
    the Treasury checker and is caught by the single [catch] of [verify]: the
    Liquidity, Team and FairLaunch checkers do not run, all four pillars keep
    their initial value (verified=false, points=0, empty details), the score
    is 0 and the only message is the warning "Verification failed: " followed
    by the error message.  A failure thrown by the [getOwners] call stays
    inside the Treasury checker: that pillar is verified=false with 0 points,
    the other three pillars are the ones their checkers compute, the risks
    start with the non-Gnosis risk and the warnings are the
    treasury-not-verified warning. *)
Theorem treasury_provider_failure (provider : Provider)
    (walletAddress : string) :
  (forall e,
     getCode provider walletAddress = Throw e ->
     verify provider walletAddress =
       Normal
         (mkReport walletAddress 0 500 "Unverified"
            (mkPillars (mkPillar false 0 "") (mkPillar false 0 "")
               (mkPillar false 0 "") (mkPillar false 0 ""))
            [] ["Verification failed: " ++ message e]))
  /\ (forall code e,
        getCode provider walletAddress = Normal code ->
        code <> "0x" ->
        getOwners provider walletAddress = Throw e ->
        exists report,
          verify provider walletAddress = Normal report
          /\ treasuryTransparency (pillars report) =
               mkPillar false 0 "Not a Gnosis Safe"
          /\ liquidityCommitment (pillars report) =
               liquidityCommitment
                 (pillars (snd (checkLiquidity walletAddress
                                  (initialResult walletAddress))))
          /\ teamTransparency (pillars report) =
               teamTransparency
                 (pillars (snd (checkTeam walletAddress
                                  (initialResult walletAddress))))
          /\ fairLaunchPledge (pillars report) =
               fairLaunchPledge
                 (pillars (snd (checkFairLaunch walletAddress
                                  (initialResult walletAddress))))
          /\ hd_error (risks report) =
               Some "Non-Gnosis treasury — high withdrawal risk"
          /\ warnings report = ["⚠️ Treasury not verified as Gnosis Safe"]).
Proof.
  split.
  - intros e He. exact (verify_getCode_throws _ _ e He).
  - intros code e Hcode Hne Ho.
    eexists. split.
    + apply verify_treasury_returns.
      exact (checkTreasury_call_fails _ _ _ code Hcode Hne e Ho).
    + rewrite checkTeam_run. cbn -[teamResult]. repeat split.
Qed.

Lemma treasury_provider_failure_witness :
  (getCode downProvider "0x742d35Cc6634C0532925a3b8D4C9db4c2B6D9126" =
     Throw (mkError "could not detect network")
   /\ verify downProvider "0x742d35Cc6634C0532925a3b8D4C9db4c2B6D9126" =
        Normal
          (mkReport "0x742d35Cc6634C0532925a3b8D4C9db4c2B6D9126" 0 500
             "Unverified"
             (mkPillars (mkPillar false 0 "") (mkPillar false 0 "")
                (mkPillar false 0 "") (mkPillar false 0 ""))
             [] ["Verification failed: could not detect network"]))
  /\ (getOwners contractProvider "0x742d35Cc6634C0532925a3b8D4C9db4c2B6D9126" =
        Throw (mkError "call revert exception")
      /\ exists report,
           verify contractProvider
             "0x742d35Cc6634C0532925a3b8D4C9db4c2B6D9126" = Normal report
           /\ treasuryTransparency (pillars report) =
                mkPillar false 0 "Not a Gnosis Safe"
           /\ teamTransparency (pillars report) =
                mkPillar true 100 "Team verified via ENS/SIWE").
Proof.
  split; (split; [reflexivity |]).
  - exact (proj1 (treasury_provider_failure downProvider
                    "0x742d35Cc6634C0532925a3b8D4C9db4c2B6D9126")
             (mkError "could not detect network") eq_refl).
  - destruct (proj2 (treasury_provider_failure contractProvider
                       "0x742d35Cc6634C0532925a3b8D4C9db4c2B6D9126")
                "0x6080" (mkError "call revert exception") eq_refl)
      as (report & Hrun & Ht & _ & Hteam & _); [discriminate | reflexivity |].
    exists report. repeat split; [exact Hrun | exact Ht | exact Hteam].
Defined.

(** C8, refuted as stated: with an unreachable provider the returned report
    has score 0, below 200, and yet no "High scam risk" entry; its only
    warning is the one of the [catch] block. *)
Lemma low_score_report_without_scam_risk :
  exists report,
    verify downProvider "0xScamWalletAddressHere" = Normal report
    /\ score report < 200
    /\ risks report = []
    /\ verified (treasuryTransparency (pillars report)) = false
    /\ warnings report = ["Verification failed: could not detect network"].
Proof. eexists. split; [reflexivity |]. repeat split. Qed.

(** C8, as the code has it.  When the bytecode fetch returns, the risks of
    the report are the risk pushed by the Treasury checker (if any) followed
    by "High scam risk: Insufficient trust signals" exactly when the score is
    below 200, and the warnings are the warning pushed by the Treasury
    checker (if any), then the treasury-not-verified warning when that pillar
    is unverified, then the no-LP-lock warning when the Liquidity pillar is
    unverified; the Treasury checker pushes at most one message, every entry
    is appended once and nothing is deduplicated.  The Liquidity checker
    pushes no message of its own.  When the bytecode fetch throws, the report
    has score 0, no risk at all, and the single warning of the [catch]
    block. *)
Theorem verify_message_order (provider : Provider) (walletAddress : string) :
  (forall code,
     getCode provider walletAddress = Normal code ->
     exists report afterTreasury,
       verify provider walletAddress = Normal report
       /\ checkTreasury provider walletAddress (initialResult walletAddress) =
            (Normal tt, afterTreasury)
       /\ (length (risks afterTreasury) + length (warnings afterTreasury)
           <= 1)%nat
       /\ risks report =
            (risks afterTreasury
             ++ (if score report <? 200
                 then ["High scam risk: Insufficient trust signals"]
                 else []))%list
       /\ warnings report =
            (warnings afterTreasury
             ++ (if verified (treasuryTransparency (pillars report))
                 then []
                 else ["⚠️ Treasury not verified as Gnosis Safe"])
             ++ (if verified (liquidityCommitment (pillars report))
                 then []
                 else ["⚠️ No long-term LP lock detected"]))%list)
  /\ (forall r,
        risks (snd (checkLiquidity walletAddress r)) = risks r
        /\ warnings (snd (checkLiquidity walletAddress r)) = warnings r)
  /\ (forall e,
        getCode provider walletAddress = Throw e ->
        exists report,
          verify provider walletAddress = Normal report
          /\ score report = 0
          /\ risks report = []
          /\ warnings report = ["Verification failed: " ++ message e]).
Proof.
  split; [| split].
  - intros code Hcode.
    destruct (checkTreasury_returns provider walletAddress
                (initialResult walletAddress) code Hcode)
      as (t & rs & ws & Hrun & _ & Hlen).
    eexists _, _. split; [exact (verify_treasury_returns _ _ _ Hrun) |].
    split; [exact Hrun |].
    split; [exact Hlen |].
    cbn -[teamResult Z.add Z.ltb]. split; [reflexivity |].
    now rewrite app_nil_r.
  - intros r. split; reflexivity.
  - intros e He. eexists. split; [exact (verify_getCode_throws _ _ e He) |].
    repeat split.
Qed.

Lemma verify_message_order_witness :
  (getCode eoaProvider "0xScamWalletAddressHere" = Normal "0x"
   /\ exists report,
        verify eoaProvider "0xScamWalletAddressHere" = Normal report
        /\ risks report =
             ["Project treasury is single-key wallet — critical risk";
              "High scam risk: Insufficient trust signals"]
        /\ warnings report = ["⚠️ Treasury not verified as Gnosis Safe"])
  /\ (getCode downProvider "0xScamWalletAddressHere" =
        Throw (mkError "could not detect network")
      /\ exists report,
           verify downProvider "0xScamWalletAddressHere" = Normal report
           /\ score report = 0
           /\ risks report = []
           /\ warnings report =
                ["Verification failed: could not detect network"]).
Proof.
  split; (split; [reflexivity |]).
  - destruct (proj1 (verify_message_order eoaProvider
                       "0xScamWalletAddressHere") "0x" eq_refl)
      as (report & t & Hrun & Ht & _ & Hrisks & Hwarn).
    exists report. split; [exact Hrun |].
    assert (Hrep : Normal report =
                   verify eoaProvider "0xScamWalletAddressHere")
      by (symmetry; exact Hrun).
    injection Hrep as ->.
    assert (Haft : (Normal tt, t) =
                   checkTreasury eoaProvider "0xScamWalletAddressHere"
                     (initialResult "0xScamWalletAddressHere"))
      by (symmetry; exact Ht).
    injection Haft as ->.
    split; [exact Hrisks | exact Hwarn].
  - exact (proj2 (proj2 (verify_message_order downProvider
                           "0xScamWalletAddressHere"))
             (mkError "could not detect network") eq_refl).
Defined.

(** ** Further properties of the checkers, of [verify] and of [demo] *)

Lemma checkTreasury_outcome provider addr r code :
  getCode provider addr = Normal code ->
  exists t rs ws,
    TreasuryOutcome provider addr t rs ws
    /\ checkTreasury provider addr r = (Normal tt, withTreasury t rs ws r).
Proof.
  intros Hcode.
  destruct (String.eqb_spec code "0x") as [-> | Hne].
  - eexists _, _, _. split; [now apply OutcomeEoa |].
    now apply checkTreasury_eoa.
  - destruct (getOwners provider addr) as [owners | e] eqn:Ho.
    + destruct (Nat.le_gt_cases 3 (length owners)) as [Hn | Hn].
      * eexists _, _, _. split; [exact (OutcomeSafe _ _ code owners Hcode Hne Ho Hn) |].
        exact (checkTreasury_safe _ _ _ code Hcode Hne owners Ho Hn).
      * eexists _, _, _.
        split; [exact (OutcomeLowSigners _ _ code owners Hcode Hne Ho Hn) |].
        exact (checkTreasury_low_signers _ _ _ code Hcode Hne owners Ho Hn).
    + eexists _, _, _.
      split; [exact (OutcomeNotSafe _ _ code e Hcode Hne Ho) |].
      exact (checkTreasury_call_fails _ _ _ code Hcode Hne e Ho).
Qed.

(** Every run of [verify] is one of two kinds. *)
Lemma verify_paths provider addr :
  (exists e,
     getCode provider addr = Throw e
     /\ verify provider addr = Normal (failedReport addr e))
  \/ (exists code t rs ws,
        getCode provider addr = Normal code
        /\ TreasuryOutcome provider addr t rs ws
        /\ verify provider addr =
             Normal (aggregated addr (withTreasury t rs ws (initialResult addr)))).
Proof.
  destruct (getCode provider addr) as [code | e] eqn:Hcode.
  - right.
    destruct (checkTreasury_outcome provider addr (initialResult addr) code Hcode)
      as (t & rs & ws & Hout & Hrun).
    exists code, t, rs, ws. repeat split; [exact Hout |].
    exact (verify_treasury_returns _ _ _ Hrun).
  - left. exists e. split; [reflexivity |].
    exact (verify_getCode_throws _ _ e Hcode).
Qed.

(** Case analysis on the run of [verify]: the goal must start with
    [exists report, verify provider addr = Normal report /\ _]. *)
Ltac by_verify_paths provider addr :=
  let e := fresh "e" in
  let code := fresh "code" in
  let Hcode := fresh "Hcode" in
  let Hout := fresh "Hout" in
  let Hrun := fresh "Hrun" in
  destruct (verify_paths provider addr)
    as [(e & Hcode & Hrun) | (code & t & rs & ws & Hcode & Hout & Hrun)];
  [ exists (failedReport addr e); split; [exact Hrun |]
  | exists (aggregated addr (withTreasury t rs ws (initialResult addr)));
    split; [exact Hrun |] ].

(** X1.  The Team checker always returns; it stores a verified pillar with
    100 points exactly when the address is, character for character, one of
    the two listed addresses, and "No team verification" with 0 points
    otherwise.  The comparison is case-sensitive: the lower-case spelling of
    a listed address is not verified.  Nothing else of [result] changes. *)
Theorem checkTeam_listed_only (addr : string) (r : Report) :
  exists r',
    checkTeam addr r = (Normal tt, r')
    /\ (verified (teamTransparency (pillars r')) = true
        /\ points (teamTransparency (pillars r')) = 100
        <-> addr = "0x742d35Cc6634C0532925a3b8D4C9db4c2B6D9126"
            \/ addr = "0x1234567890123456789012345678901234567890")
    /\ (teamTransparency (pillars r') =
          mkPillar true 100 "Team verified via ENS/SIWE"
        \/ teamTransparency (pillars r') =
             mkPillar false 0 "No team verification")
    /\ verified
         (teamTransparency
            (pillars
               (snd (checkTeam "0x742d35cc6634c0532925a3b8d4c9db4c2b6d9126"
                       r)))) = false
    /\ treasuryTransparency (pillars r') = treasuryTransparency (pillars r)
    /\ liquidityCommitment (pillars r') = liquidityCommitment (pillars r)
    /\ fairLaunchPledge (pillars r') = fairLaunchPledge (pillars r)
    /\ risks r' = risks r
    /\ warnings r' = warnings r
    /\ score r' = score r
    /\ tier r' = tier r.
Proof.
  eexists. split; [apply checkTeam_run |].
  cbn -[teamResult]. unfold teamResult, includes, verifiedTeams.
  cbn [existsb].
  destruct (String.eqb_spec addr "0x742d35Cc6634C0532925a3b8D4C9db4c2B6D9126");
    destruct (String.eqb_spec addr
                "0x1234567890123456789012345678901234567890");
    cbn; repeat split; auto; try tauto;
    intros [? ?]; discriminate.
Qed.

(** X2.  The Fair-Launch checker always returns and always stores
    verified=false with 0 points and "No fair launch pledge", for every
    address, leaving the rest of [result] alone; so no report of [verify]
    ever has a verified fair-launch pillar, and no score exceeds 400 of the
    500 announced. *)
Theorem fairLaunch_never_verified (provider : Provider)
    (walletAddress : string) (r : Report) :
  (exists r',
     checkFairLaunch walletAddress r = (Normal tt, r')
     /\ fairLaunchPledge (pillars r') =
          mkPillar false 0 "No fair launch pledge"
     /\ treasuryTransparency (pillars r') = treasuryTransparency (pillars r)
     /\ liquidityCommitment (pillars r') = liquidityCommitment (pillars r)
     /\ teamTransparency (pillars r') = teamTransparency (pillars r)
     /\ risks r' = risks r
     /\ warnings r' = warnings r)
  /\ (exists report,
        verify provider walletAddress = Normal report
        /\ verified (fairLaunchPledge (pillars report)) = false
        /\ points (fairLaunchPledge (pillars report)) = 0
        /\ score report <= 400
        /\ maxScore report = 500).
Proof.
  split.
  - eexists. split; [reflexivity |]. cbn. repeat split.
  - by_verify_paths provider walletAddress.
    + cbn. repeat split; lia.
    + cbn -[teamResult Z.add]. repeat split.
      destruct (teamResult_points walletAddress) as [[_ Hp] | [_ Hp]];
        destruct Hout; cbn -[teamResult Z.add]; rewrite Hp; lia.
Qed.

(** X3.  The score of a report takes one of five values only: 0, 150, 250,
    300 or 400.  It is 0 exactly when the bytecode fetch threw, and otherwise
    150 for the mock LP lock plus 100 for a listed team plus 150 for a
    verified treasury.  On every path the tier stored in the report is
    [getTier] of the score stored in it. *)
Theorem verify_reachable_scores (provider : Provider)
    (walletAddress : string) :
  exists report,
    verify provider walletAddress = Normal report
    /\ tier report = getTier (score report)
    /\ (score report = 0 \/ score report = 150 \/ score report = 250
        \/ score report = 300 \/ score report = 400)
    /\ (score report = 0
        <-> exists e, getCode provider walletAddress = Throw e)
    /\ (score report = 0
        \/ score report =
             150
             + (if verified (teamTransparency (pillars report))
                then 100 else 0)
             + (if verified (treasuryTransparency (pillars report))
                then 150 else 0)).
Proof.
  by_verify_paths provider walletAddress.
  - cbn. repeat split; auto; try easy. now exists e.
  - cbn -[teamResult Z.add getTier]. split; [reflexivity |].
    assert (Hnothrow : ~ exists e', getCode provider walletAddress = Throw e')
      by (intros [e' He']; congruence).
    destruct (teamResult_points walletAddress) as [[Hv Hp] | [Hv Hp]];
      destruct Hout; cbn -[teamResult Z.add]; rewrite Hv, Hp;
      (split; [lia |]); (split; [split; [lia | tauto] | right; lia]).
Qed.

(** X4.  The tier of a report in terms of its pillars: "Verified Builder"
    exactly when both the treasury and the team pillar are verified,
    "Unverified" exactly when neither is, and "Emerging Builder" exactly when
    one of the two is. *)
Theorem verify_tier_by_pillars (provider : Provider)
    (walletAddress : string) :
  exists report,
    verify provider walletAddress = Normal report
    /\ (tier report = "Verified Builder"
        <-> verified (treasuryTransparency (pillars report)) = true
            /\ verified (teamTransparency (pillars report)) = true)
    /\ (tier report = "Unverified"
        <-> verified (treasuryTransparency (pillars report)) = false
            /\ verified (teamTransparency (pillars report)) = false)
    /\ (tier report = "Emerging Builder"
        <-> verified (treasuryTransparency (pillars report))
            <> verified (teamTransparency (pillars report))).
Proof.
  by_verify_paths provider walletAddress.
  - cbn. repeat split; intros; try discriminate; intuition congruence.
  - cbn -[teamResult Z.add getTier].
    destruct (teamResult_points walletAddress) as [[Hv Hp] | [Hv Hp]];
      destruct Hout; cbn -[teamResult Z.add getTier]; rewrite Hv, Hp; cbn;
      repeat split; intros; try discriminate; intuition congruence.
Qed.

(** X5.  A report has no warning exactly when its treasury pillar is
    verified, and then it has no risk either.  Every other report carries at
    least one warning. *)
Theorem verify_clean_iff_treasury_verified (provider : Provider)
    (walletAddress : string) :
  exists report,
    verify provider walletAddress = Normal report
    /\ (warnings report = []
        <-> verified (treasuryTransparency (pillars report)) = true)
    /\ (verified (treasuryTransparency (pillars report)) = false
        \/ risks report = []).
Proof.
  by_verify_paths provider walletAddress.
  - cbn. split; [split; discriminate | now left].
  - cbn -[teamResult Z.add Z.ltb].
    destruct Hout; cbn -[teamResult Z.add Z.ltb].
    + split; [split; discriminate | now left].
    + split; [split; reflexivity | right].
      destruct (teamResult_points walletAddress) as [[_ Hp] | [_ Hp]];
        rewrite Hp; reflexivity.
    + split; [split; discriminate | now left].
    + split; [split; discriminate | now left].
Qed.

(** X6.  The treasury pillar of a report is verified exactly when the
    bytecode fetch returned something other than "0x" and [getOwners]
    returned at least three owners. *)
Theorem verify_treasury_verified_iff (provider : Provider)
    (walletAddress : string) :
  exists report,
    verify provider walletAddress = Normal report
    /\ (verified (treasuryTransparency (pillars report)) = true
        <-> exists code owners,
              getCode provider walletAddress = Normal code
              /\ code <> "0x"
              /\ getOwners provider walletAddress = Normal owners
              /\ (3 <= length owners)%nat).
Proof.
  by_verify_paths provider walletAddress.
  - cbn. split; [discriminate |].
    intros (c & o & Hc & _). congruence.
  - cbn -[teamResult Z.add Z.ltb].
    destruct Hout as [Heoa | c o Hc Hne Ho Hn | c o Hc Hne Ho Hn
                      | c e Hc Hne Ho]; cbn.
    + split; [discriminate |].
      intros (c & o & Hc & Hne & _). congruence.
    + split; [intros _ | reflexivity]. now exists c, o.
    + split; [discriminate |].
      intros (c' & o' & _ & _ & Ho' & Hn').
      rewrite Ho in Ho'. injection Ho' as <-. lia.
    + split; [discriminate |].
      intros (c' & o' & _ & _ & Ho' & _). congruence.
Qed.

(** X7.  The only error that leaves the Treasury checker is one thrown by
    the bytecode fetch, and it leaves [result] exactly as it was: an error of
    the [getOwners] call never escapes. *)
Theorem checkTreasury_throws_only_from_getCode (provider : Provider)
    (addr : string) (r r' : Report) (e : JsError)
    (Hthrow : checkTreasury provider addr r = (Throw e, r')) :
  getCode provider addr = Throw e /\ r' = r.
Proof.
  destruct (getCode provider addr) as [code | e0] eqn:Hcode.
  - destruct (checkTreasury_outcome provider addr r code Hcode)
      as (t & rs & ws & _ & Hrun).
    rewrite Hrun in Hthrow. discriminate.
  - rewrite (checkTreasury_getCode_throws _ _ r e0 Hcode) in Hthrow.
    injection Hthrow as -> ->. split; reflexivity.
Qed.

Lemma checkTreasury_throws_only_from_getCode_witness :
  checkTreasury downProvider "0xScamWalletAddressHere"
    (initialResult "0xScamWalletAddressHere") =
    (Throw (mkError "could not detect network"),
     initialResult "0xScamWalletAddressHere")
  /\ getCode downProvider "0xScamWalletAddressHere" =
       Throw (mkError "could not detect network").
Proof.
  split; [reflexivity |].
  exact (proj1 (checkTreasury_throws_only_from_getCode downProvider
                  "0xScamWalletAddressHere"
                  (initialResult "0xScamWalletAddressHere")
                  (initialResult "0xScamWalletAddressHere")
                  (mkError "could not detect network") eq_refl)).
Defined.

(** X8.  Whatever the provider answers, the Treasury checker touches only
    its own pillar and only appends: address, score, tier and the other
    three pillars are unchanged, and the earlier risks and warnings are kept
    as a prefix, followed by at most one new message in all. *)
Theorem checkTreasury_frame (provider : Provider) (addr : string)
    (r : Report) :
  exists c r' rs ws,
    checkTreasury provider addr r = (c, r')
    /\ address r' = address r
    /\ score r' = score r
    /\ maxScore r' = maxScore r
    /\ tier r' = tier r
    /\ teamTransparency (pillars r') = teamTransparency (pillars r)
    /\ fairLaunchPledge (pillars r') = fairLaunchPledge (pillars r)
    /\ liquidityCommitment (pillars r') = liquidityCommitment (pillars r)
    /\ risks r' = (risks r ++ rs)%list
    /\ warnings r' = (warnings r ++ ws)%list
    /\ (length rs + length ws <= 1)%nat.
Proof.
  destruct (getCode provider addr) as [code | e] eqn:Hcode.
  - destruct (checkTreasury_returns provider addr r code Hcode)
      as (t & rs & ws & Hrun & _ & Hlen).
    exists (Normal tt), (withTreasury t rs ws r), rs, ws.
    split; [exact Hrun |]. cbn. repeat split. exact Hlen.
  - exists (Throw e), r, [], [].
    split; [exact (checkTreasury_getCode_throws _ _ r e Hcode) |].
    rewrite !app_nil_r. cbn. repeat split. lia.
Qed.

(** X9.  The Liquidity, Team and Fair-Launch checkers overwrite one pillar
    each and never throw, so they can run in any order, for any addresses,
    with the same final [result], and running one twice is the same as
    running it once. *)
Theorem pure_checkers_commute (a b c : string) (r : Report) :
  (checkLiquidity a ;; checkTeam b) r = (checkTeam b ;; checkLiquidity a) r
  /\ (checkLiquidity a ;; checkFairLaunch c) r =
       (checkFairLaunch c ;; checkLiquidity a) r
  /\ (checkTeam b ;; checkFairLaunch c) r =
       (checkFairLaunch c ;; checkTeam b) r
  /\ (checkLiquidity a ;; checkTeam b ;; checkFairLaunch c) r =
       (checkFairLaunch c ;; checkTeam b ;; checkLiquidity a) r
  /\ (checkLiquidity a ;; checkLiquidity a) r = checkLiquidity a r
  /\ (checkTeam b ;; checkTeam b) r = checkTeam b r
  /\ (checkFairLaunch c ;; checkFairLaunch c) r = checkFairLaunch c r.
Proof.
  unfold Js.bind, checkTeam.
  destruct (includes verifiedTeams b); cbn; repeat split.
Qed.

(** X10.  No report ever carries the warning "No long-term LP lock
    detected", not even the report of the [catch] path whose liquidity pillar
    is unverified.  A report holds at most two risks, at most two warnings
    and at most three messages in all. *)
Theorem verify_message_bounds (provider : Provider)
    (walletAddress : string) :
  exists report,
    verify provider walletAddress = Normal report
    /\ ~ In "⚠️ No long-term LP lock detected" (warnings report)
    /\ (length (risks report) <= 2)%nat
    /\ (length (warnings report) <= 2)%nat
    /\ (length (risks report) + length (warnings report) <= 3)%nat.
Proof.
  by_verify_paths provider walletAddress.
  - cbn. split; [| lia]. intros [H | []]. discriminate H.
  - cbn -[teamResult Z.add Z.ltb].
    set (s := 0 + points (teamResult walletAddress) + 0 + 150 + _).
    destruct Hout; cbn -[teamResult Z.add Z.ltb] in *;
      (split; [intros Hin;
               repeat (destruct Hin as [Hin | Hin]; try discriminate Hin);
               exact Hin
              | destruct (s <? 200); cbn; lia]).
Qed.

(** X11.  The "High scam risk" entry is in the risks of a report exactly
    when the score is 150, that is when the checkers ran and neither the
    treasury nor the team pillar got verified; a report with score 0 does not
    carry it. *)
Theorem verify_high_scam_risk_iff (provider : Provider)
    (walletAddress : string) :
  exists report,
    verify provider walletAddress = Normal report
    /\ (In "High scam risk: Insufficient trust signals" (risks report)
        <-> score report = 150).
Proof.
  by_verify_paths provider walletAddress.
  - cbn. split; [intros [] | discriminate].
  - cbn -[teamResult Z.add Z.ltb].
    destruct (teamResult_points walletAddress) as [[_ Hp] | [_ Hp]];
      destruct Hout; cbn -[teamResult Z.add Z.ltb]; rewrite Hp; cbn;
      (split;
       [intros Hin;
        repeat (destruct Hin as [Hin | Hin]; try discriminate Hin);
        try reflexivity; try contradiction
       | intros Heq; try discriminate Heq; auto]).
Qed.

(** X12.  The tier never goes down when the score goes up. *)
Theorem getTier_monotone (s1 s2 : Z) (Hle : s1 <= s2) :
  (tierRank (getTier s1) <= tierRank (getTier s2))%nat.
Proof.
  unfold getTier.
  destruct (Z.leb_spec 350 s1), (Z.leb_spec 350 s2),
    (Z.leb_spec 200 s1), (Z.leb_spec 200 s2); cbn; lia.
Qed.

Lemma getTier_monotone_witness :
  (tierRank (getTier 199) <= tierRank (getTier 350))%nat.
Proof. apply (getTier_monotone 199 350). lia. Defined.





(** X15.  [verify] consults the provider at the given address only, and
    asks for the owners only when the bytecode is not "0x": two providers
    that return the same bytecode answer for the address, and the same
    [getOwners] answer unless that bytecode answer is "0x" or an error, lead
    to the same report. *)
Theorem verify_provider_locality (p1 p2 : Provider) (walletAddress : string)
    (Hcode : getCode p1 walletAddress = getCode p2 walletAddress)
    (Howners :
       getCode p1 walletAddress = Normal "0x"
       \/ (exists e, getCode p1 walletAddress = Throw e)
       \/ getOwners p1 walletAddress = getOwners p2 walletAddress) :
  verify p1 walletAddress = verify p2 walletAddress.
Proof.
  destruct (getCode p1 walletAddress) as [code | e] eqn:H1.
  - assert (Hsame :
      checkTreasury p1 walletAddress (initialResult walletAddress) =
      checkTreasury p2 walletAddress (initialResult walletAddress)).
    { unfold checkTreasury, Js.bind, Js.await, Js.tryCatch.
      rewrite <- Hcode, H1.
      destruct (String.eqb_spec code "0x") as [-> | Hne]; cbn [negb];
        [reflexivity |].
      destruct Howners as [H0x | [[e He] | Ho]];
        [congruence | discriminate He | now rewrite Ho]. }
    destruct (checkTreasury_returns p1 walletAddress
                (initialResult walletAddress) code H1)
      as (t & rs & ws & Hrun & _).
    rewrite (verify_treasury_returns p1 _ _ Hrun).
    rewrite Hsame in Hrun.
    now rewrite (verify_treasury_returns p2 _ _ Hrun).
  - rewrite (verify_getCode_throws p1 _ e H1).
    symmetry in Hcode.
    now rewrite (verify_getCode_throws p2 _ e Hcode).
Qed.

Lemma verify_provider_locality_witness :
  verify eoaProvider "0xScamWalletAddressHere" =
  verify (mkProvider (fun _ => Normal "0x")
            (fun _ => Normal ["0xA1"; "0xB2"; "0xC3"]))
    "0xScamWalletAddressHere".
Proof.
  apply verify_provider_locality; [reflexivity | left; reflexivity].
Defined.

(** ** The second layer *)

Lemma raw_checkTreasury_nullish provider addr r :
  Raw.getCode provider addr = Raw.Err Nullish ->
  Raw.checkTreasury provider addr r = (Raw.Err Nullish, r).
Proof.
  intros H. unfold Raw.checkTreasury, Raw.bind, Raw.await. now rewrite H.
Qed.

(** Unless the bytecode fetch rejects with [null] / [undefined], the
    Treasury checker of the second layer is the one of the first layer. *)
Lemma raw_checkTreasury_view provider addr r :
  Raw.getCode provider addr <> Raw.Err Nullish ->
  Raw.checkTreasury provider addr r =
    Raw.lift (checkTreasury (errorObjectView provider) addr) r.
Proof.
  intros Hnot.
  unfold Raw.checkTreasury, checkTreasury, errorObjectView.
  unfold Raw.bind, Js.bind, Raw.await, Js.await, Raw.tryCatch, Js.tryCatch,
    Raw.lift.
  cbn [getCode getOwners].
  destruct (Raw.getCode provider addr) as [code | [e |]];
    [| reflexivity | congruence].
  destruct (negb (String.eqb code "0x")); [| reflexivity].
  destruct (Raw.getOwners provider addr) as [owners | [e |]];
    [destruct (3 <=? length owners)%nat | |]; reflexivity.
Qed.

Lemma raw_verifyBody_run provider addr r r1 :
  Raw.checkTreasury provider addr r = (Raw.Ok tt, r1) ->
  Raw.verifyBody provider addr r = (Raw.Ok tt, aggregated addr r1).
Proof.
  intros Ht. unfold Raw.verifyBody.
  unfold Raw.bind at 1. rewrite Ht.
  unfold Raw.bind at 1. unfold Raw.lift at 1.
  change (checkLiquidity addr r1) with
    (setLiquidity
       (mkPillar true 150 "LP locked for 180 days (non-renounceable)") r1).
  cbv beta iota delta [setLiquidity Js.modify].
  unfold Raw.bind at 1. unfold Raw.lift at 1. rewrite checkTeam_run.
  unfold aggregated.
  cbn -[teamResult getTier Z.add Z.ltb].
  set (s := 0 + points (teamResult addr) + 0 + 150
            + points (treasuryTransparency (pillars r1))).
  destruct (s <? 200);
    cbn -[teamResult getTier Z.add Z.ltb];
    destruct (verified (treasuryTransparency (pillars r1)));
    cbn; rewrite ?app_nil_r; reflexivity.
Qed.

Lemma raw_verify_nullish provider addr :
  Raw.getCode provider addr = Raw.Err Nullish ->
  Raw.verify provider addr = Raw.Err MessageOfNullish.
Proof.
  intros H. unfold Raw.verify, Raw.tryCatch, Raw.verifyBody.
  unfold Raw.bind at 1.
  now rewrite (raw_checkTreasury_nullish _ _ _ H).
Qed.

Lemma raw_verify_error provider addr e :
  Raw.getCode provider addr = Raw.Err (ErrorObject e) ->
  Raw.verify provider addr = Raw.Ok (failedReport addr e).
Proof.
  intros H. unfold Raw.verify, Raw.tryCatch, Raw.verifyBody.
  unfold Raw.bind at 1.
  unfold Raw.checkTreasury at 1, Raw.bind at 1, Raw.await at 1.
  now rewrite H.
Qed.

Lemma raw_verify_returns provider addr code :
  Raw.getCode provider addr = Raw.Ok code ->
  exists t rs ws,
    TreasuryOutcome (errorObjectView provider) addr t rs ws
    /\ Raw.checkTreasury provider addr (initialResult addr) =
         (Raw.Ok tt, withTreasury t rs ws (initialResult addr))
    /\ Raw.verify provider addr =
         Raw.Ok (aggregated addr (withTreasury t rs ws (initialResult addr))).
Proof.
  intros Hcode.
  assert (Hview : getCode (errorObjectView provider) addr = Normal code)
    by (cbn; now rewrite Hcode).
  destruct (checkTreasury_outcome (errorObjectView provider) addr
              (initialResult addr) code Hview)
    as (t & rs & ws & Hout & Hrun).
  assert (Hraw : Raw.checkTreasury provider addr (initialResult addr) =
                 (Raw.Ok tt, withTreasury t rs ws (initialResult addr))).
  { rewrite raw_checkTreasury_view by (rewrite Hcode; discriminate).
    unfold Raw.lift. now rewrite Hrun. }
  exists t, rs, ws. repeat split; [exact Hout | exact Hraw |].
  unfold Raw.verify, Raw.tryCatch.
  now rewrite (raw_verifyBody_run _ _ _ _ Hraw).
Qed.

(** On providers that only throw [Error] objects the two layers agree. *)
Lemma raw_verify_first_layer (provider : Provider) (addr : string) :
  exists report,
    verify provider addr = Normal report
    /\ Raw.verify (rawProvider provider) addr = Raw.Ok report.
Proof.
  assert (Hsame : forall r,
            Raw.checkTreasury (rawProvider provider) addr r =
            Raw.lift (checkTreasury provider addr) r).
  { intros r.
    unfold Raw.checkTreasury, checkTreasury, rawProvider, rawCompletion.
    unfold Raw.bind, Js.bind, Raw.await, Js.await, Raw.tryCatch, Js.tryCatch,
      Raw.lift.
    cbn [Raw.getCode Raw.getOwners].
    destruct (getCode provider addr) as [code | e]; [| reflexivity].
    destruct (negb (String.eqb code "0x")); [| reflexivity].
    destruct (getOwners provider addr) as [owners | e];
      [destruct (3 <=? length owners)%nat |]; reflexivity. }
  destruct (getCode provider addr) as [code | e] eqn:Hcode.
  - destruct (checkTreasury_outcome provider addr (initialResult addr) code
                Hcode) as (t & rs & ws & _ & Hrun).
    eexists. split; [exact (verify_treasury_returns _ _ _ Hrun) |].
    unfold Raw.verify, Raw.tryCatch.
    rewrite (raw_verifyBody_run _ _ _
               (withTreasury t rs ws (initialResult addr)));
      [reflexivity |].
    rewrite Hsame. unfold Raw.lift. now rewrite Hrun.
  - exists (failedReport addr e).
    split; [exact (verify_getCode_throws _ _ e Hcode) |].
    apply raw_verify_error. cbn. now rewrite Hcode.
Qed.

(** C9, refuted as stated: the address that the demo of the source passes to
    [verify] is not a syntactically valid address; with a provider that
    rejects it with an [Error], [verify] has already entered the Treasury
    check and resolves to a report carrying that error as a warning, not to
    an [InvalidAddress] error. *)
Lemma invalid_address_gets_report :
  isValidAddress "0xScamWalletAddressHere" = false
  /\ Raw.getCode strictProvider "0xScamWalletAddressHere" =
       Raw.Err (ErrorObject (mkError "invalid address"))
  /\ Raw.verify strictProvider "0xScamWalletAddressHere" =
       Raw.Ok
         (mkReport "0xScamWalletAddressHere" 0 500 "Unverified"
            (mkPillars (mkPillar false 0 "") (mkPillar false 0 "")
               (mkPillar false 0 "") (mkPillar false 0 ""))
            [] ["Verification failed: invalid address"]).
Proof. repeat split. Qed.

(** C9, as the code has it.  [verify] does not validate its argument: for
    every address, syntactically valid or not, it starts the Treasury check
    on it, and what happens next depends only on what the bytecode fetch
    does.  If the fetch returns, the four checkers run and [verify] resolves
    to a report for that address whose pillars are the ones the checkers
    compute.  If the fetch rejects with an [Error] object, [verify] resolves
    to the initial report (all pillars unverified, score 0) with the single
    warning "Verification failed: " followed by the message.  If the fetch
    rejects with [null] or [undefined], the [catch] block itself throws and
    [verify] rejects with that [TypeError].  There is no [InvalidAddress]
    error. *)
Theorem verify_has_no_address_check (provider : Raw.Provider)
    (walletAddress : string) :
  match Raw.getCode provider walletAddress with
  | Raw.Ok _ =>
      exists report afterTreasury,
        Raw.verify provider walletAddress = Raw.Ok report
        /\ Raw.checkTreasury provider walletAddress
             (initialResult walletAddress) = (Raw.Ok tt, afterTreasury)
        /\ address report = walletAddress
        /\ treasuryTransparency (pillars report) =
             treasuryTransparency (pillars afterTreasury)
        /\ liquidityCommitment (pillars report) =
             liquidityCommitment
               (pillars (snd (checkLiquidity walletAddress
                                (initialResult walletAddress))))
        /\ teamTransparency (pillars report) =
             teamTransparency
               (pillars (snd (checkTeam walletAddress
                                (initialResult walletAddress))))
        /\ fairLaunchPledge (pillars report) =
             fairLaunchPledge
               (pillars (snd (checkFairLaunch walletAddress
                                (initialResult walletAddress))))
  | Raw.Err (ErrorObject e) =>
      Raw.verify provider walletAddress =
        Raw.Ok
          (mkReport walletAddress 0 500 "Unverified"
             (mkPillars (mkPillar false 0 "") (mkPillar false 0 "")
                (mkPillar false 0 "") (mkPillar false 0 ""))
             [] [("Verification failed: " ++ message e)%string])
  | Raw.Err Nullish =>
      Raw.verify provider walletAddress = Raw.Err MessageOfNullish
  end.
Proof.
  destruct (Raw.getCode provider walletAddress) as [code | [e |]] eqn:Hcode.
  - destruct (raw_verify_returns provider walletAddress code Hcode)
      as (t & rs & ws & _ & Hrun & Hverify).
    eexists _, _. split; [exact Hverify |]. split; [exact Hrun |].
    rewrite checkTeam_run. cbn -[teamResult]. repeat split.
  - exact (raw_verify_error _ _ e Hcode).
  - exact (raw_verify_nullish _ _ Hcode).
Qed.


(** A rejection with [undefined] makes [verify] reject, for any address. *)
Lemma verify_rejects_on_nullish (walletAddress : string) :
  Raw.verify nullishProvider walletAddress = Raw.Err MessageOfNullish.
Proof. now apply raw_verify_nullish. Qed.
